(** * MediaWiki pages table: the query-to-API translation of [PagesTable]

    A shallow embedding of
    [mindsdb/integrations/handlers/mediawiki_handler/mediawiki_tables.py].

    The module is glue between three external collaborators: the SQL clause
    parsers ([SELECTQueryParser], [INSERTQueryParser]), the post-fetch
    executor ([pd.json_normalize], [SELECTQueryExecutor]) and the handler with
    its wiki connection.  The parsers and the executor are section variables;
    the handler and its connection are a record of state transformers over an
    abstract remote world.  Every call that reaches the handler is appended to
    a call log, every [logger.debug] line to a debug log. *)

From Stdlib Require Import ZArith List String Ascii Lia.
From stdpp Require Import base option list strings gmap pretty.

Local Open Scope string_scope.
Local Open Scope Z_scope.

(** ** Python values *)

(** The constants a parsed SQL clause can carry (floats are left out). *)
Inductive pyval :=
| PNone
| PBool (b : bool)
| PInt (n : Z)
| PStr (s : string).

Definition is_none (v : pyval) : bool :=
  match v with PNone => true | _ => false end.

(** [str(v)], which is what an f-string placeholder [{v}] expands to. *)
Definition py_str (v : pyval) : string :=
  match v with
  | PNone => "None"
  | PBool true => "True"
  | PBool false => "False"
  | PInt n => pretty n
  | PStr s => s
  end.

(** The values of the attributes of a fetched page. *)
Inductive attr_value :=
| AInt (n : Z)
| AStr (s : string)
| AStrs (l : list string).

Inductive exn :=
| ValueError (msg : string)
| KeyError (key : string)
| AttributeError (name : string)
| RemoteError (what : string).

Inductive res (A : Type) :=
| Ok (a : A)
| Raise (e : exn).
Arguments Ok {A} a.
Arguments Raise {A} e.

(** A filter condition is the list [[op, column, value]]. *)
Record condition := Cond { c_op : string; c_col : string; c_val : pyval }.

(** ** [PagesTable.validate_where_conditions] *)

Definition unsupported_operator (c : condition) : string :=
  "Unsupported operator '" ++ c_op c ++ "' for column '" ++ c_col c
    ++ "' in WHERE clause.".

Definition unsupported_column (c : condition) : string :=
  "Unsupported column '" ++ c_col c ++ "' in WHERE clause.".

(** The body of the [for] loop, from the current [(title, page_id)]. *)
Fixpoint validate_loop (conditions : list condition) (title page_id : pyval)
  : res (pyval * pyval) :=
  match conditions with
  | [] => Ok (title, page_id)
  | condition :: rest =>
      if String.eqb (c_col condition) "title" then
        if negb (String.eqb (c_op condition) "=") then
          Raise (ValueError (unsupported_operator condition))
        else validate_loop rest (c_val condition) page_id
      else if String.eqb (c_col condition) "pageid" then
        if negb (String.eqb (c_op condition) "=") then
          Raise (ValueError (unsupported_operator condition))
        else validate_loop rest title (c_val condition)
      else Raise (ValueError (unsupported_column condition))
  end.

Definition validate_where_conditions (conditions : list condition)
  : res (pyval * pyval) :=
  validate_loop conditions PNone PNone.

(** ** [PagesTable.get_columns] *)

Definition get_columns : list string :=
  ["pageid"; "title"; "original_title"; "content"; "summary"; "url";
   "categories"].

(** ** The search term of [PagesTable.get_pages] *)

Definition query_parts (title page_id : pyval) : list string :=
  (if negb (is_none title) then ["intitle:" ++ py_str title] else [])
  ++ (if negb (is_none page_id) then ["pageid:" ++ py_str page_id] else []).

Definition search_query (title page_id : pyval) : string :=
  String.concat " | " (query_parts title page_id).

(** Truth value of a Python string: only the empty string is false. *)
Definition str_truthy (s : string) : bool :=
  match s with EmptyString => false | String _ _ => true end.

(** ** [json.dumps] on the fragment the module serialises *)

#[warnings="-register-all"] Inductive json :=
| JString (s : string)
| JArray (items : list json)
| JObject (members : list (string * json)).

Definition dquote : string := String "034"%char EmptyString.

(** A hexadecimal digit, in lower case. *)
Definition hex_digit (n : nat) : ascii :=
  if Nat.ltb n 10 then ascii_of_nat (48 + n) else ascii_of_nat (87 + n).

(** The escape of one character of the ASCII range, as [ensure_ascii] has
    it: the quote and the backslash, the short forms of the control
    characters, [\u00xx] for the other characters outside the range from
    the space to the tilde.  (Characters beyond ASCII are not decoded here;
    the literals of the module have none.) *)
Definition json_escape_char (c : ascii) : string :=
  let n := nat_of_ascii c in
  if Nat.eqb n 34 then "\" ++ dquote
  else if Nat.eqb n 92 then "\\"
  else if Nat.eqb n 10 then "\n"
  else if Nat.eqb n 13 then "\r"
  else if Nat.eqb n 9 then "\t"
  else if Nat.eqb n 8 then "\b"
  else if Nat.eqb n 12 then "\f"
  else if Nat.ltb n 32 || Nat.eqb n 127 then
    "\u00" ++ String (hex_digit (Nat.div n 16))
                (String (hex_digit (Nat.modulo n 16)) EmptyString)
  else String c EmptyString.

Fixpoint json_escape (s : string) : string :=
  match s with
  | EmptyString => EmptyString
  | String c rest => json_escape_char c ++ json_escape rest
  end.

Fixpoint json_dumps (j : json) : string :=
  match j with
  | JString s => dquote ++ json_escape s ++ dquote
  | JArray items => "[" ++ String.concat ", " (map json_dumps items) ++ "]"
  | JObject members =>
      "{" ++ String.concat ", "
               (map (fun m => match m with
                              | (k, v) => dquote ++ json_escape k ++ dquote
                                            ++ ": " ++ json_dumps v
                              end) members) ++ "}"
  end.

(** The [headers] literal of [insert]. *)
Definition edit_headers : json :=
  JArray [JObject [("Accept", JString "application/json")];
          JObject [("Content-Type",
                    JString "application/x-www-form-urlencoded")]].

(** ** The handler, its connection and the log of calls *)

(** A row of the result, and the mapping an INSERT row or an API payload is. *)
Abbreviation row := (gmap string attr_value).
Abbreviation pydict := (gmap string pyval).

(** A fetched page, seen through [getattr(page, name)]: the read gives a
    value or raises.  On the pages of the wiki client the read of an
    attribute that the remote answer does not hold raises [KeyError]. *)
Definition page := string -> res attr_value.

Inductive call :=
| Connect
| Search (query : string) (results : Z)
| Page (title : string) (auto_suggest : bool)
| Random (pages : Z)
| CallApplicationApi (method : string) (params : pydict).

Definition is_page_call (c : call) : bool :=
  match c with Page _ _ => true | _ => false end.

Definition debug_line (attribute : string) : string :=
  "Error accessing '" ++ attribute ++ "' attribute. Skipping...".

Section PagesTable.

(** The remote wiki. *)
Variable World : Type.

(** The external collaborators: the parsed queries ([ast.Select],
    [ast.Insert]), the clause parsers, the data frame and the executor. *)
Variables select_ast insert_ast order_by DataFrame : Type.
Variable SELECTQueryParser :
  select_ast -> string -> list string ->
  res (list string * list condition * order_by * Z).
Variable INSERTQueryParser : insert_ast -> list string -> res (list pydict).
Variable json_normalize : list row -> DataFrame.
Variable SELECTQueryExecutor :
  DataFrame -> list string -> list condition -> order_by -> res DataFrame.

Record handler := Handler {
  h_connect : World -> res unit * World;
  h_search : string -> Z -> World -> res (list string) * World;
  h_page : string -> bool -> World -> res page * World;
  h_random : Z -> World -> res (list string) * World;
  h_call_application_api :
    string -> pydict -> World -> res unit * World
}.

Record state := State {
  world : World;
  calls : list call;
  debug : list string
}.

(** Computations that read and change the state and may raise. *)
Definition M (A : Type) : Type := state -> res A * state.

Definition ret {A} (a : A) : M A := fun s => (Ok a, s).
Definition raise {A} (e : exn) : M A := fun s => (Raise e, s).
Definition bind {A B} (m : M A) (k : A -> M B) : M B :=
  fun s => match m s with
           | (Ok a, s') => k a s'
           | (Raise e, s') => (Raise e, s')
           end.
Definition lift {A} (r : res A) : M A :=
  match r with Ok a => ret a | Raise e => raise e end.

Notation "x <- m ;; k" := (bind m (fun x => k))
  (at level 100, m at next level, right associativity).

(** A call to the handler: logged, then run on the remote world. *)
Definition invoke {A} (c : call) (f : World -> res A * World) : M A :=
  fun s => let (r, w) := f (world s) in
           (r, State w (calls s ++ [c]) (debug s)).

Definition logger_debug (line : string) : M unit :=
  fun s => (Ok tt, State (world s) (calls s) (debug s ++ [line])).

(** A list comprehension whose element expression has effects. *)
Fixpoint comprehension {A B} (f : A -> M B) (l : list A) : M (list B) :=
  match l with
  | [] => ret []
  | x :: rest =>
      y <- f x ;; ys <- comprehension f rest ;; ret (y :: ys)
  end.

Variable h : handler.

(** ** [PagesTable.convert_page_to_dict] *)

Fixpoint convert_loop (p : page) (attributes : list string) (result : row)
  : M row :=
  match attributes with
  | [] => ret result
  | attribute :: rest =>
      match p attribute with
      | Ok v => convert_loop p rest (<[attribute := v]> result)
      | Raise (KeyError _) =>
          _ <- logger_debug (debug_line attribute) ;;
          convert_loop p rest result
      | Raise e => raise e
      end
  end.

Definition convert_page_to_dict (p : page) : M row :=
  convert_loop p get_columns ∅.

(** ** [PagesTable.get_pages] *)

Definition fetch_page (result : string) : M row :=
  p <- invoke (Page result false) (h_page h result false) ;;
  convert_page_to_dict p.

Definition get_pages (title page_id : pyval) (limit : Z) : M (list row) :=
  let search_query := search_query title page_id in
  _ <- invoke Connect (h_connect h) ;;
  if str_truthy search_query then
    results <- invoke (Search search_query limit)
                 (h_search h search_query limit) ;;
    comprehension fetch_page results
  else
    results <- invoke (Random limit) (h_random h limit) ;;
    comprehension fetch_page results.

(** The defaults of the keyword parameters: an argument that the caller
    leaves out is [None] here. *)
Definition get_pages_kw (title page_id : option pyval) (limit : option Z)
  : M (list row) :=
  get_pages (default PNone title) (default PNone page_id)
    (default 20 limit).

(** ** [PagesTable.select] *)

Definition select (query : select_ast) : M DataFrame :=
  parsed <- lift (SELECTQueryParser query "pages" get_columns) ;;
  let '(selected_columns, where_conditions, order_by_conditions,
        result_limit) := parsed in
  validated <- lift (validate_where_conditions where_conditions) ;;
  let '(title, page_id) := validated in
  pages <- get_pages title page_id result_limit ;;
  let pages_df := json_normalize pages in
  lift (SELECTQueryExecutor pages_df selected_columns []
          order_by_conditions).

(** ** [PagesTable.insert] *)

(** [d[key]] on a dictionary. *)
Definition getitem (d : pydict) (key : string) : res pyval :=
  match d !! key with
  | Some v => Ok v
  | None => Raise (KeyError key)
  end.

Definition edit_params (title text summary : pyval) : pydict :=
  <["headers" := PStr (json_dumps edit_headers)]>
    (<["summary" := summary]> (<["text" := text]> (<["title" := title]> ∅))).

Definition insert (query : insert_ast) : M unit :=
  values_to_insert <- lift (INSERTQueryParser query get_columns) ;;
  match values_to_insert with
  | [] => ret tt
  | row :: _ =>
      title <- lift (getitem row "title") ;;
      text <- lift (getitem row "content") ;;
      summary <- lift (getitem row "summary") ;;
      let params := edit_params title text summary in
      invoke (CallApplicationApi "edit" params)
        (h_call_application_api h "edit" params)
  end.

End PagesTable.

Arguments h_connect {World} h w.
Arguments h_search {World} h query results w.
Arguments h_page {World} h title auto_suggest w.
Arguments h_random {World} h pages w.
Arguments h_call_application_api {World} h method params w.
Arguments State {World} world calls debug.
Arguments world {World} s.
Arguments calls {World} s.
Arguments debug {World} s.
Arguments ret {World A} a s.
Arguments raise {World A} e s.
Arguments bind {World A B} m k s.
Arguments lift {World A} r s.
Arguments invoke {World A} c f s.
Arguments logger_debug {World} line s.
Arguments comprehension {World A B} f l s.
Arguments convert_loop {World} p attributes result s.
Arguments convert_page_to_dict {World} p s.
Arguments fetch_page {World} h result s.
Arguments get_pages {World} h title page_id limit s.
Arguments get_pages_kw {World} h title page_id limit s.
Arguments select {World select_ast order_by DataFrame} SELECTQueryParser
  json_normalize SELECTQueryExecutor h query s.
Arguments insert {World insert_ast} INSERTQueryParser h query s.

(** ** Conditions the table accepts *)

(** An equality on [title] or on [pageid]. *)
Definition supported (c : condition) : bool :=
  (String.eqb (c_col c) "title" || String.eqb (c_col c) "pageid")
  && String.eqb (c_op c) "=".

(** The message of the [ValueError] a rejected condition is reported with. *)
Definition rejection (c : condition) : string :=
  if String.eqb (c_col c) "title" || String.eqb (c_col c) "pageid"
  then unsupported_operator c
  else unsupported_column c.

(** The page can be read: a read of a schema attribute gives a value or
    raises [KeyError], the way a page does for a field its remote answer
    does not hold. *)
Definition readable (p : page) : Prop :=
  forall a e, In a get_columns -> p a = Raise e -> exists k, e = KeyError k.

(** The handler serves every page, and every page it serves can be read. *)
Definition serves_pages {World} (h : handler World) : Prop :=
  forall t w, exists p w', h_page h t false w = (Ok p, w') /\ readable p.

(** The read of the attribute raises [KeyError]. *)
Definition lacks (p : page) (attribute : string) : bool :=
  match p attribute with
  | Raise (KeyError _) => true
  | _ => false
  end.

Definition page_calls (titles : list string) : list call :=
  map (fun t => Page t false) titles.

(** ** A small wiki, for the examples *)

Definition sample_page (title : string) : page :=
  fun attribute =>
    if String.eqb attribute "pageid" then Ok (AInt 7)
    else if String.eqb attribute "categories" then Raise (KeyError "categories")
    else if String.eqb attribute "secret" then Raise (AttributeError "secret")
    else Ok (AStr title).

(** The world counts the requests served. *)
Definition sample_wiki : handler nat :=
  {| h_connect := fun w => (Ok tt, S w);
     h_search := fun q n w =>
       (Ok (take (Z.to_nat n) ["Alpha"; "Beta"; "Gamma"]), S w);
     h_page := fun t _ w => (Ok (sample_page t), S w);
     h_random := fun n w => (Ok (take (Z.to_nat n) ["Delta"; "Epsilon"]), S w);
     h_call_application_api := fun _ _ w => (Ok tt, S w) |}.

(** A page whose [categories] read fails with [AttributeError]. *)
Definition bare_page : page :=
  fun attribute =>
    if String.eqb attribute "categories"
    then Raise (AttributeError "categories")
    else Ok (AStr attribute).

(** Parsed queries as the clauses they hold. *)
Definition sample_select_ast : Type :=
  list string * list condition * unit * Z.
Definition sample_select_parser (q : sample_select_ast) (table : string)
  (columns : list string) : res (list string * list condition * unit * Z) :=
  Ok q.
Definition sample_insert_parser (q : list pydict) (columns : list string)
  : res (list pydict) := Ok q.
Definition sample_normalize (rows : list row) : list row := rows.
Definition sample_executor (df : list row) (selected : list string)
  (conditions : list condition) (order : unit) : res (list row) := Ok df.

Definition sample_select (q : sample_select_ast) (s : state nat)
  : res (list row) * state nat :=
  select sample_select_parser sample_normalize sample_executor sample_wiki q s.

Definition sample_insert (q : list pydict) (s : state nat)
  : res unit * state nat :=
  insert sample_insert_parser sample_wiki q s.

Definition start : state nat := State 0%nat [] [].

Definition query_on_url : sample_select_ast :=
  ([], [Cond "=" "title" (PStr "X"); Cond "=" "url" (PStr "Y")], tt, 2).
Definition query_on_title : sample_select_ast :=
  ([], [Cond "=" "title" (PStr "X")], tt, 2).
Definition query_without_filter : sample_select_ast := ([], [], tt, 5).
Definition query_on_both : sample_select_ast :=
  ([], [Cond "=" "title" (PStr "X"); Cond "=" "pageid" (PInt 7)], tt, 2).
Definition query_on_title_twice : sample_select_ast :=
  ([], [Cond "=" "title" (PStr "A"); Cond "=" "title" (PStr "B")], tt, 2).

Definition full_row : pydict :=
  <["summary" := PStr "S"]>
    (<["content" := PStr "C"]> (<["title" := PStr "T"]> ∅)).
Definition row_without_content : pydict :=
  <["summary" := PStr "S"]> (<["title" := PStr "T"]> ∅).

(** A wiki that cannot be reached, and one whose page [Beta] cannot be
    fetched. *)
Definition offline_wiki : handler nat :=
  {| h_connect := fun w => (Raise (RemoteError "connect"), S w);
     h_search := h_search sample_wiki;
     h_page := h_page sample_wiki;
     h_random := h_random sample_wiki;
     h_call_application_api := h_call_application_api sample_wiki |}.

Definition flaky_wiki : handler nat :=
  {| h_connect := h_connect sample_wiki;
     h_search := h_search sample_wiki;
     h_page := fun t a w =>
       if String.eqb t "Beta" then (Raise (RemoteError "page"), S w)
       else h_page sample_wiki t a w;
     h_random := h_random sample_wiki;
     h_call_application_api := h_call_application_api sample_wiki |}.

Definition searchless_wiki : handler nat :=
  {| h_connect := h_connect sample_wiki;
     h_search := fun q n w => (Raise (RemoteError "search"), S w);
     h_page := h_page sample_wiki;
     h_random := h_random sample_wiki;
     h_call_application_api := h_call_application_api sample_wiki |}.

Definition full_row_with_url : pydict := <["url" := PStr "U"]> full_row.

Definition query_on_pageid : sample_select_ast :=
  ([], [Cond "=" "pageid" (PInt 7)], tt, 2).
Definition query_on_null_title : sample_select_ast :=
  ([], [Cond "=" "title" PNone], tt, 2).
Definition query_on_three : sample_select_ast :=
  ([], [Cond "=" "title" (PStr "X")], tt, 3).

(** * Properties *)

(** ** Validation of the WHERE clause *)

Lemma supported_cases (c : condition) :
  supported c = true <->
  (c_col c = "title" \/ c_col c = "pageid") /\ c_op c = "=".
Proof.
  unfold supported.
  rewrite andb_true_iff, orb_true_iff, !String.eqb_eq. tauto.
Qed.

Lemma rejection_column (c : condition) :
  c_col c <> "title" -> c_col c <> "pageid" ->
  rejection c = "Unsupported column '" ++ c_col c ++ "' in WHERE clause.".
Proof.
  intros Ht Hp. unfold rejection.
  apply String.eqb_neq in Ht. apply String.eqb_neq in Hp.
  rewrite Ht, Hp. reflexivity.
Qed.

Lemma rejection_operator (c : condition) :
  c_col c = "title" \/ c_col c = "pageid" ->
  rejection c =
    "Unsupported operator '" ++ c_op c ++ "' for column '" ++ c_col c
      ++ "' in WHERE clause.".
Proof.
  intros Hc. unfold rejection, unsupported_operator.
  destruct Hc as [Hc | Hc]; rewrite Hc; reflexivity.
Qed.

(** One turn of the loop on a supported condition. *)
Lemma validate_loop_step (c : condition) rest t p :
  supported c = true ->
  validate_loop (c :: rest) t p =
    validate_loop rest
      (if String.eqb (c_col c) "title" then c_val c else t)
      (if String.eqb (c_col c) "title" then p else c_val c).
Proof.
  intros Hs. apply supported_cases in Hs as [Hcol Hop].
  simpl. rewrite Hop. simpl.
  destruct Hcol as [Hcol | Hcol]; rewrite Hcol; reflexivity.
Qed.

(** The loop stops at the first condition that is not supported. *)
Lemma validate_loop_rejects (conds : list condition) :
  forallb supported conds = false ->
  forall t p, exists pre c post,
    conds = (pre ++ c :: post)%list /\ forallb supported pre = true /\
    supported c = false /\
    validate_loop conds t p = Raise (ValueError (rejection c)).
Proof.
  induction conds as [| a rest IH]; simpl; [discriminate |].
  intros Hall t p.
  destruct (supported a) eqn:Ha.
  - simpl in Hall.
    pose proof (validate_loop_step a rest t p Ha) as Hstep. simpl in Hstep.
    destruct (IH Hall
                (if String.eqb (c_col a) "title" then c_val a else t)
                (if String.eqb (c_col a) "title" then p else c_val a))
      as (pre & c & post & -> & Hpre & Hc & Hrun).
    exists (a :: pre), c, post. simpl. rewrite Ha, Hpre.
    repeat split; try assumption.
    rewrite Hstep. exact Hrun.
  - exists [], a, rest. repeat split; try assumption.
    unfold supported in Ha. unfold rejection.
    destruct (String.eqb (c_col a) "title") eqn:Et; simpl in *.
    + rewrite Ha. reflexivity.
    + destruct (String.eqb (c_col a) "pageid") eqn:Ep; simpl in *.
      * rewrite Ha. reflexivity.
      * reflexivity.
Qed.

(** On supported conditions the loop ends, and each column keeps the value
    of its last condition. *)
Lemma validate_loop_accepts (conds : list condition) :
  forallb supported conds = true ->
  forall t p, exists t' p',
    validate_loop conds t p = Ok (t', p') /\
    (Forall (fun d => c_col d <> "title") conds -> t' = t) /\
    (Forall (fun d => c_col d <> "pageid") conds -> p' = p) /\
    (forall pre c post, conds = (pre ++ c :: post)%list ->
       c_col c = "title" -> Forall (fun d => c_col d <> "title") post ->
       t' = c_val c) /\
    (forall pre c post, conds = (pre ++ c :: post)%list ->
       c_col c = "pageid" -> Forall (fun d => c_col d <> "pageid") post ->
       p' = c_val c).
Proof.
  induction conds as [| a rest IH]; intros Hall t p.
  - exists t, p. simpl. repeat split; try reflexivity.
    + intros [|] ? ? Heq; discriminate.
    + intros [|] ? ? Heq; discriminate.
  - simpl in Hall. apply andb_true_iff in Hall as [Ha Hrest].
    rewrite (validate_loop_step a rest t p Ha).
    pose proof Ha as Hsup. apply supported_cases in Hsup as [Hcol _].
    destruct (IH Hrest
                (if String.eqb (c_col a) "title" then c_val a else t)
                (if String.eqb (c_col a) "title" then p else c_val a))
      as (t' & p' & Hrun & Ht & Hp & Htl & Hpl).
    exists t', p'. split; [exact Hrun |].
    assert (Hdist : c_col a = "title" -> String.eqb (c_col a) "title" = true)
      by (intros ->; reflexivity).
    assert (Hdisp : c_col a = "pageid" -> String.eqb (c_col a) "title" = false)
      by (intros ->; reflexivity).
    repeat split.
    + intros Hno. inversion Hno as [| ? ? Hna Hnr]; subst.
      destruct Hcol as [Hcol | Hcol]; [contradiction |].
      rewrite (Hdisp Hcol) in Ht. auto.
    + intros Hno. inversion Hno as [| ? ? Hna Hnr]; subst.
      destruct Hcol as [Hcol | Hcol]; [| contradiction].
      rewrite (Hdist Hcol) in Hp. auto.
    + intros pre c post Heq Hc Hpost. destruct pre as [| b pre].
      * simpl in Heq. injection Heq as <- <-.
        rewrite (Hdist Hc) in Ht. auto.
      * simpl in Heq. injection Heq as <- ->. eauto.
    + intros pre c post Heq Hc Hpost. destruct pre as [| b pre].
      * simpl in Heq. injection Heq as <- <-.
        rewrite (Hdisp Hc) in Hp. auto.
      * simpl in Heq. injection Heq as <- ->. eauto.
Qed.

(** ** Conversion of a page *)

Section Conversion.

Context {World : Type}.
Implicit Types (s : state World) (p : page) (result : row).

(** The conversion never touches the remote world or the call log. *)
Lemma convert_loop_local p attributes :
  forall result s,
    world (snd (convert_loop p attributes result s)) = world s /\
    calls (snd (convert_loop p attributes result s)) = calls s.
Proof.
  induction attributes as [| a rest IH]; intros result s; simpl.
  - split; reflexivity.
  - destruct (p a) as [v | e].
    + apply IH.
    + destruct e; try (split; reflexivity).
      unfold bind, logger_debug.
      destruct (IH result (State (world s) (calls s)
                             (debug s ++ [debug_line a])%list)) as [Hw Hc].
      split; assumption.
Qed.

(** A key of the row is a key the row had or one of the attributes read. *)
Lemma convert_loop_keys p attributes :
  forall result s result' s',
    convert_loop p attributes result s = (Ok result', s') ->
    forall k, is_Some (result' !! k) ->
              In k attributes \/ is_Some (result !! k).
Proof.
  induction attributes as [| a rest IH]; intros result s result' s'; simpl.
  - unfold ret. intros [= <- <-] k Hk. right. exact Hk.
  - destruct (p a) as [v | e].
    + intros Hrun k Hk.
      destruct (IH _ _ _ _ Hrun k Hk) as [Hin | Hsome]; [auto |].
      destruct (decide (a = k)) as [-> | Hne]; [auto |].
      rewrite lookup_insert_ne in Hsome by exact Hne. auto.
    + destruct e; try (unfold raise; discriminate).
      unfold bind, logger_debug. intros Hrun k Hk.
      destruct (IH _ _ _ _ Hrun k Hk); auto.
Qed.

(** The run on a page whose failing reads all fail with [KeyError]. *)
Lemma convert_loop_readable p attributes :
  (forall a e, In a attributes -> p a = Raise e -> exists k, e = KeyError k) ->
  forall result s, exists result',
    convert_loop p attributes result s =
      (Ok result',
       State (world s) (calls s)
         (debug s ++ map debug_line (filter (lacks p) attributes))%list) /\
    (forall a v, In a attributes -> p a = Ok v -> result' !! a = Some v) /\
    (forall a, lacks p a = true -> result' !! a = result !! a) /\
    (forall a, ~ In a attributes -> result' !! a = result !! a).
Proof.
  induction attributes as [| a rest IH]; intros Hread result s.
  - exists result. simpl. unfold ret. rewrite app_nil_r.
    destruct s; simpl. repeat split; try reflexivity. intros ? ? [].
  - assert (Hrest : forall a0 e, In a0 rest -> p a0 = Raise e ->
                                 exists k, e = KeyError k)
      by (intros a0 e Hin; apply Hread; right; exact Hin).
    simpl. destruct (p a) as [v | e] eqn:Hpa.
    + destruct (IH Hrest (<[a := v]> result) s)
        as (result' & Hrun & Hhas & Hlack & Hout).
      exists result'. rewrite Hrun.
      assert (Hla : lacks p a = false) by (unfold lacks; rewrite Hpa; reflexivity).
      rewrite filter_cons_False by (rewrite Hla; auto).
      split; [reflexivity |]. repeat split.
      * intros a0 v0 [<- | Hin] Hv0.
        -- destruct (in_dec string_dec a rest) as [Hin | Hnin].
           ++ apply Hhas; assumption.
           ++ rewrite (Hout a Hnin), lookup_insert_eq. congruence.
        -- apply Hhas; assumption.
      * intros a0 Ha0. rewrite (Hlack a0 Ha0).
        apply lookup_insert_ne. intros <-. congruence.
      * intros a0 Hnin. rewrite Hout by (intros Hin; apply Hnin; right; exact Hin).
        apply lookup_insert_ne. intros <-. apply Hnin. left. reflexivity.
    + destruct (Hread a e (or_introl eq_refl) Hpa) as [k ->].
      unfold bind, logger_debug.
      destruct (IH Hrest result
                  (State (world s) (calls s) (debug s ++ [debug_line a])%list))
        as (result' & Hrun & Hhas & Hlack & Hout).
      exists result'. rewrite Hrun. simpl.
      assert (Hla : lacks p a = true) by (unfold lacks; rewrite Hpa; reflexivity).
      rewrite filter_cons_True by (rewrite Hla; auto).
      simpl. rewrite <- app_assoc. simpl.
      split; [reflexivity |]. repeat split.
      * intros a0 v0 [<- | Hin] Hv0; [congruence |].
        apply Hhas; assumption.
      * exact Hlack.
      * intros a0 Hnin. apply Hout. intros Hin. apply Hnin. right. exact Hin.
Qed.

End Conversion.

(** ** Fetching the pages *)

Lemma page_calls_are_pages (titles : list string) :
  forallb is_page_call (page_calls titles) = true.
Proof. induction titles as [| t rest IH]; [reflexivity | exact IH]. Qed.

Section Fetching.

Context {World : Type} (h : handler World).
Implicit Types (s : state World) (rs : list string).

Lemma convert_page_local (p : page) s :
  world (snd (convert_page_to_dict p s)) = world s /\
  calls (snd (convert_page_to_dict p s)) = calls s.
Proof. apply convert_loop_local. Qed.

(** One page: the [page] call is logged, whatever comes of it. *)
Lemma fetch_page_calls (t : string) s :
  calls (snd (fetch_page h t s)) = (calls s ++ [Page t false])%list.
Proof.
  unfold fetch_page, bind, invoke.
  destruct (h_page h t false (world s)) as [[p | e] w]; [| reflexivity].
  destruct (convert_page_local p (State w (calls s ++ [Page t false])%list
                                    (debug s))) as [_ Hc].
  destruct (convert_page_to_dict p _) as [[r | e] s']; exact Hc.
Qed.

(** The comprehension fetches the pages in order and stops at the first
    failure; when it ends it has one row per title. *)
Lemma comprehension_fetch_calls rs :
  forall s, exists k,
    (k <= length rs)%nat /\
    calls (snd (comprehension (fetch_page h) rs s)) =
      (calls s ++ page_calls (take k rs))%list /\
    (forall rows, fst (comprehension (fetch_page h) rs s) = Ok rows ->
                  k = length rs /\ length rows = length rs).
Proof.
  induction rs as [| t rest IH]; intros s.
  - exists 0%nat. simpl. unfold ret. simpl. rewrite app_nil_r.
    split; [lia |]. split; [reflexivity |].
    intros rows' [= <-]. split; reflexivity.
  - simpl. unfold bind.
    pose proof (fetch_page_calls t s) as Hone.
    destruct (fetch_page h t s) as [[r | e] s1]; simpl in Hone.
    + destruct (IH s1) as (k & Hk & Hcalls & Hrows).
      exists (S k).
      destruct (comprehension (fetch_page h) rest s1) as [[rows | e] s2];
        simpl in *.
      * unfold ret. simpl. rewrite Hcalls, Hone, <- app_assoc. simpl.
        split; [lia |]. split; [reflexivity |].
        intros rows' [= <-]. destruct (Hrows rows eq_refl) as [-> Hlen].
        simpl. rewrite Hlen. split; reflexivity.
      * rewrite Hcalls, Hone, <- app_assoc. simpl.
        split; [lia |]. split; [reflexivity |]. discriminate.
    + exists 1%nat. simpl. rewrite ?take_0. simpl.
      split; [lia |]. split; [exact Hone |]. discriminate.
Qed.

(** When the handler serves every page the comprehension ends with rows. *)
Lemma comprehension_fetch_served rs :
  serves_pages h ->
  forall s, exists rows, fst (comprehension (fetch_page h) rs s) = Ok rows.
Proof.
  intros Hserve. induction rs as [| t rest IH]; intros s.
  - exists []. reflexivity.
  - simpl. unfold bind at 1. unfold fetch_page at 1. unfold bind, invoke.
    destruct (Hserve t (world s)) as (p & w' & Hpage & Hread).
    rewrite Hpage.
    destruct (convert_loop_readable p get_columns Hread ∅
                (State w' (calls s ++ [Page t false])%list (debug s)))
      as (r & Hrun & _).
    unfold convert_page_to_dict. rewrite Hrun.
    match goal with |- context [comprehension _ rest ?s1] =>
      destruct (IH s1) as [rows Hrows];
      destruct (comprehension (fetch_page h) rest s1) as [[rows' | e] s2]
    end; simpl in Hrows; [| discriminate].
    exists (r :: rows'). reflexivity.
Qed.

(** The first call after [connect]: a search when there is a search term,
    the random sample otherwise. *)
Lemma get_pages_listing (title page_id : pyval) (limit : Z) s w1 :
  h_connect h (world s) = (Ok tt, w1) ->
  get_pages h title page_id limit s =
    bind
      (invoke
         (if str_truthy (search_query title page_id)
          then Search (search_query title page_id) limit else Random limit)
         (if str_truthy (search_query title page_id)
          then h_search h (search_query title page_id) limit
          else h_random h limit))
      (comprehension (fetch_page h))
      (State w1 (calls s ++ [Connect])%list (debug s)).
Proof.
  intros Hc. unfold get_pages. unfold bind at 1. unfold invoke at 1.
  rewrite Hc. simpl. destruct (str_truthy _); reflexivity.
Qed.

(** A listing call followed by the comprehension. *)
Lemma listing_then_pages (c : call)
  (f : World -> res (list string) * World) s :
  exists tail,
    calls (snd (bind (invoke c f) (comprehension (fetch_page h)) s)) =
      (calls s ++ c :: tail)%list /\
    forallb is_page_call tail = true /\
    (forall rs w2, f (world s) = (Ok rs, w2) ->
       exists k, (k <= length rs)%nat /\ tail = page_calls (take k rs) /\
         (forall rows,
            fst (bind (invoke c f) (comprehension (fetch_page h)) s) = Ok rows ->
            k = length rs /\ length rows = length rs) /\
         (serves_pages h -> exists rows,
            fst (bind (invoke c f) (comprehension (fetch_page h)) s) = Ok rows)).
Proof.
  unfold bind, invoke.
  destruct (f (world s)) as [[rs | e] w2].
  - destruct (comprehension_fetch_calls rs
                (State w2 (calls s ++ [c])%list (debug s)))
      as (k & Hk & Hcalls & Hrows).
    exists (page_calls (take k rs)). simpl in Hcalls.
    rewrite Hcalls, <- app_assoc. simpl. split; [reflexivity |]. split.
    + apply page_calls_are_pages.
    + intros rs' w2' [= <- <-]. exists k.
      split; [exact Hk |]. split; [reflexivity |]. split; [exact Hrows |].
      intros Hserve. apply comprehension_fetch_served. exact Hserve.
  - exists []. simpl. split; [reflexivity |]. split; [reflexivity |].
    discriminate.
Qed.

End Fetching.

(** ** The table *)

Section Table.

Context {World select_ast insert_ast order_by DataFrame : Type}.
Variable SELECTQueryParser :
  select_ast -> string -> list string ->
  res (list string * list condition * order_by * Z).
Variable INSERTQueryParser : insert_ast -> list string -> res (list pydict).
Variable json_normalize : list row -> DataFrame.
Variable SELECTQueryExecutor :
  DataFrame -> list string -> list condition -> order_by -> res DataFrame.
Variable h : handler World.

Implicit Types (s : state World) (query : select_ast).

Local Abbreviation run_select :=
  (select SELECTQueryParser json_normalize SELECTQueryExecutor h).
Local Abbreviation run_insert := (insert INSERTQueryParser h).

(** Once the clause is validated, [select] is [get_pages] followed by the
    executor on the rows fetched; the executor leaves the state alone. *)
Lemma select_after_validation query cols conds ob lim t p s :
  SELECTQueryParser query "pages" get_columns = Ok (cols, conds, ob, lim) ->
  validate_where_conditions conds = Ok (t, p) ->
  run_select query s =
    (match fst (get_pages h t p lim s) with
     | Ok pages => SELECTQueryExecutor (json_normalize pages) cols [] ob
     | Raise e => Raise e
     end,
     snd (get_pages h t p lim s)).
Proof.
  intros Hparse Hval. unfold select, bind.
  rewrite Hparse. simpl. rewrite Hval. simpl.
  destruct (get_pages h t p lim s) as [[pages | e] s1]; simpl; [| reflexivity].
  destruct (SELECTQueryExecutor _ _ _ _); reflexivity.
Qed.

(** C1: a SELECT whose WHERE clause holds a condition on a column other
    than [title] and [pageid], or a condition on one of these two with an
    operator other than [=], fails with a [ValueError] whose message names
    the column (or the operator and the column) of such a condition, and the
    state it ends in is the state it started from: no call was made to the
    handler or its connection. *)
Theorem select_rejects_unsupported_condition query cols conds ob lim s :
  SELECTQueryParser query "pages" get_columns = Ok (cols, conds, ob, lim) ->
  (exists c, In c conds /\
     ((c_col c <> "title" /\ c_col c <> "pageid") \/
      ((c_col c = "title" \/ c_col c = "pageid") /\ c_op c <> "="))) ->
  exists c, In c conds /\
    ((c_col c <> "title" /\ c_col c <> "pageid" /\
      run_select query s =
        (Raise (ValueError
                  ("Unsupported column '" ++ c_col c ++ "' in WHERE clause.")),
         s)) \/
     ((c_col c = "title" \/ c_col c = "pageid") /\ c_op c <> "=" /\
      run_select query s =
        (Raise (ValueError
                  ("Unsupported operator '" ++ c_op c ++ "' for column '"
                     ++ c_col c ++ "' in WHERE clause.")),
         s))).
Proof.
  intros Hparse (bad & Hin & Hbad).
  assert (Hall : forallb supported conds = false).
  { destruct (forallb supported conds) eqn:Hall; [| reflexivity].
    rewrite forallb_forall in Hall. specialize (Hall bad Hin).
    apply supported_cases in Hall. tauto. }
  destruct (validate_loop_rejects conds Hall PNone PNone)
    as (pre & c & post & -> & _ & Hc & Hrun).
  exists c. split; [apply in_elt |].
  assert (Hsel : run_select query s = (Raise (ValueError (rejection c)), s)).
  { unfold select, bind. rewrite Hparse. simpl.
    unfold validate_where_conditions. rewrite Hrun. reflexivity. }
  destruct (string_dec (c_col c) "title") as [Ht | Ht].
  - right. assert (Hcol : c_col c = "title" \/ c_col c = "pageid") by auto.
    split; [exact Hcol |]. split.
    + intros Hop. assert (supported c = true) by (apply supported_cases; auto).
      congruence.
    + rewrite Hsel, (rejection_operator c Hcol). reflexivity.
  - destruct (string_dec (c_col c) "pageid") as [Hp | Hp].
    + right. assert (Hcol : c_col c = "title" \/ c_col c = "pageid") by auto.
      split; [exact Hcol |]. split.
      * intros Hop. assert (supported c = true) by (apply supported_cases; auto).
        congruence.
      * rewrite Hsel, (rejection_operator c Hcol). reflexivity.
    + left. split; [exact Ht |]. split; [exact Hp |].
      rewrite Hsel, (rejection_column c Ht Hp). reflexivity.
Qed.

(** The outcome of [get_pages] once the connection is made and the listing
    call has answered. *)
Lemma get_pages_listed (t p : pyval) (lim : Z) s w1 rs w2 :
  h_connect h (world s) = (Ok tt, w1) ->
  (if str_truthy (search_query t p)
   then h_search h (search_query t p) lim w1
   else h_random h lim w1) = (Ok rs, w2) ->
  exists k, (k <= length rs)%nat /\
    calls (snd (get_pages h t p lim s)) =
      (calls s ++ Connect ::
         (if str_truthy (search_query t p)
          then Search (search_query t p) lim else Random lim)
         :: page_calls (take k rs))%list /\
    (forall rows, fst (get_pages h t p lim s) = Ok rows ->
                  k = length rs /\ length rows = length rs) /\
    (serves_pages h -> exists rows, fst (get_pages h t p lim s) = Ok rows).
Proof.
  intros Hc Hlist. rewrite (get_pages_listing h t p lim s w1 Hc).
  destruct (listing_then_pages h
              (if str_truthy (search_query t p)
               then Search (search_query t p) lim else Random lim)
              (if str_truthy (search_query t p)
               then h_search h (search_query t p) lim else h_random h lim)
              (State w1 (calls s ++ [Connect])%list (debug s)))
    as (tail & Hcalls & _ & Hrs).
  destruct (Hrs rs w2) as (k & Hk & -> & Hrows & Hserved).
  { simpl. destruct (str_truthy (search_query t p)); exact Hlist. }
  exists k. split; [exact Hk |]. split; [| split; assumption].
  rewrite Hcalls. simpl. rewrite <- app_assoc. reflexivity.
Qed.

(** The calls of [get_pages] once the connection is made: the listing call,
    then [page] calls only. *)
Lemma get_pages_calls (t p : pyval) (lim : Z) s w1 :
  h_connect h (world s) = (Ok tt, w1) ->
  exists tail,
    calls (snd (get_pages h t p lim s)) =
      (calls s ++ Connect ::
         (if str_truthy (search_query t p)
          then Search (search_query t p) lim else Random lim) :: tail)%list /\
    forallb is_page_call tail = true.
Proof.
  intros Hc. rewrite (get_pages_listing h t p lim s w1 Hc).
  destruct (listing_then_pages h
              (if str_truthy (search_query t p)
               then Search (search_query t p) lim else Random lim)
              (if str_truthy (search_query t p)
               then h_search h (search_query t p) lim else h_random h lim)
              (State w1 (calls s ++ [Connect])%list (debug s)))
    as (tail & Hcalls & Hpages & _).
  exists tail. split; [| exact Hpages].
  rewrite Hcalls. simpl. rewrite <- app_assoc. reflexivity.
Qed.

(** C2: when the only WHERE condition is [title = 'X'], the connection is
    made and the search answers with at most [limit] titles, [select] calls
    [search] with the term [intitle:X] and [results] equal to the limit of the
    query, calls nothing else but [page] on the titles returned, and hands at
    most [limit] rows to the executor; when every page is served there is one
    row per title. *)
Theorem select_by_title query cols ob lim (X : string) s w1 rs w2 :
  SELECTQueryParser query "pages" get_columns =
    Ok (cols, [Cond "=" "title" (PStr X)], ob, lim) ->
  h_connect h (world s) = (Ok tt, w1) ->
  h_search h ("intitle:" ++ X) lim w1 = (Ok rs, w2) ->
  Z.of_nat (length rs) <= lim ->
  exists k r s',
    get_pages h (PStr X) PNone lim s = (r, s') /\
    run_select query s =
      (match r with
       | Ok pages => SELECTQueryExecutor (json_normalize pages) cols [] ob
       | Raise e => Raise e
       end, s') /\
    calls s' =
      (calls s ++ Connect :: Search ("intitle:" ++ X) lim
         :: page_calls (take k rs))%list /\
    (forall pages, r = Ok pages -> Z.of_nat (length pages) <= lim) /\
    (serves_pages h ->
     exists pages, r = Ok pages /\ length pages = length rs).
Proof.
  intros Hparse Hc Hsearch Hlen.
  destruct (get_pages_listed (PStr X) PNone lim s w1 rs w2 Hc Hsearch)
    as (k & _ & Hcalls & Hrows & Hserved).
  rewrite (select_after_validation query cols _ ob lim (PStr X) PNone s Hparse
             eq_refl).
  destruct (get_pages h (PStr X) PNone lim s) as [r s'] eqn:Hrun.
  simpl in *. exists k, r, s'. split; [reflexivity |]. split; [reflexivity |].
  split; [exact Hcalls |]. split.
  - intros pages ->. destruct (Hrows pages eq_refl) as [_ ->]. exact Hlen.
  - intros Hs. destruct (Hserved Hs) as [pages ->]. exists pages.
    split; [reflexivity |]. apply (Hrows pages eq_refl).
Qed.

(** C3: with no WHERE condition, once the connection is made, [select] calls
    [random] with [pages] equal to the limit of the query, never [search],
    then [page] on the titles returned; when it has rows there is one per
    title returned, and it has rows when every page is served. *)
Theorem select_without_filter query cols ob lim s w1 rs w2 :
  SELECTQueryParser query "pages" get_columns = Ok (cols, [], ob, lim) ->
  h_connect h (world s) = (Ok tt, w1) ->
  h_random h lim w1 = (Ok rs, w2) ->
  exists k r s',
    get_pages h PNone PNone lim s = (r, s') /\
    run_select query s =
      (match r with
       | Ok pages => SELECTQueryExecutor (json_normalize pages) cols [] ob
       | Raise e => Raise e
       end, s') /\
    calls s' =
      (calls s ++ Connect :: Random lim :: page_calls (take k rs))%list /\
    (forall term n, ~ In (Search term n)
                      (Connect :: Random lim :: page_calls (take k rs))) /\
    (forall pages, r = Ok pages -> length pages = length rs) /\
    (serves_pages h ->
     exists pages, r = Ok pages /\ length pages = length rs).
Proof.
  intros Hparse Hc Hrandom.
  destruct (get_pages_listed PNone PNone lim s w1 rs w2 Hc Hrandom)
    as (k & _ & Hcalls & Hrows & Hserved).
  rewrite (select_after_validation query cols _ ob lim PNone PNone s Hparse
             eq_refl).
  destruct (get_pages h PNone PNone lim s) as [r s'] eqn:Hrun.
  simpl in *. exists k, r, s'. split; [reflexivity |]. split; [reflexivity |].
  split; [exact Hcalls |]. split; [| split].
  - intros term n [Hin | [Hin | Hin]]; try discriminate.
    unfold page_calls in Hin. apply in_map_iff in Hin as (t & Ht & _).
    discriminate.
  - intros pages ->. apply (Hrows pages eq_refl).
  - intros Hs. destruct (Hserved Hs) as [pages ->]. exists pages.
    split; [reflexivity |]. apply (Hrows pages eq_refl).
Qed.

(** C4 (amended): when the WHERE clause is the two equality filters
    [title = X] and [pageid = N], in either order, the search term sent is
    the fragment [intitle:X], then a space, a bar and a space, then the
    fragment [pageid:N]. *)
Theorem select_by_title_and_pageid query cols conds ob lim (tv pv : pyval)
  s w1 :
  SELECTQueryParser query "pages" get_columns = Ok (cols, conds, ob, lim) ->
  conds = [Cond "=" "title" tv; Cond "=" "pageid" pv] \/
  conds = [Cond "=" "pageid" pv; Cond "=" "title" tv] ->
  tv <> PNone -> pv <> PNone ->
  h_connect h (world s) = (Ok tt, w1) ->
  exists tail,
    calls (snd (run_select query s)) =
      (calls s ++ Connect
         :: Search ("intitle:" ++ py_str tv ++ " | " ++ "pageid:" ++ py_str pv)
              lim
         :: tail)%list /\
    forallb is_page_call tail = true.
Proof.
  intros Hparse Hconds Htv Hpv Hc.
  assert (Hval : validate_where_conditions conds = Ok (tv, pv))
    by (destruct Hconds as [-> | ->]; reflexivity).
  rewrite (select_after_validation query cols conds ob lim tv pv s Hparse Hval).
  simpl.
  destruct (get_pages_calls tv pv lim s w1 Hc) as (tail & Hcalls & Hpages).
  exists tail. split; [| exact Hpages]. rewrite Hcalls.
  assert (Hq : search_query tv pv =
               "intitle:" ++ py_str tv ++ " | " ++ "pageid:" ++ py_str pv).
  { unfold search_query, query_parts.
    destruct tv; try congruence; destruct pv; try congruence; reflexivity. }
  rewrite Hq. reflexivity.
Qed.

(** The listing call, with its search term written out. *)
Lemma listing_call_written_out (t p : pyval) (lim : Z) :
  (if str_truthy (search_query t p)
   then Search (search_query t p) lim else Random lim) =
  (if is_none t then
     if is_none p then Random lim
     else Search ("pageid:" ++ py_str p) lim
   else
     if is_none p then Search ("intitle:" ++ py_str t) lim
     else Search ("intitle:" ++ py_str t ++ " | " ++ "pageid:" ++ py_str p)
            lim).
Proof. destruct t, p; reflexivity. Qed.

(** C9: several equality conditions on the same supported column are
    accepted; the value returned for a column is the value of its last
    condition in list order ([None] when the column has no condition), and
    that value is the one the search term of [select] is built from: the term
    is [intitle:] followed by the last title value, [pageid:] followed by the
    last page id value, or both joined, and the earlier values appear
    nowhere. *)
Theorem validate_keeps_last_value query cols conds ob lim s :
  SELECTQueryParser query "pages" get_columns = Ok (cols, conds, ob, lim) ->
  forallb supported conds = true ->
  exists t p,
    validate_where_conditions conds = Ok (t, p) /\
    (forall pre c post, conds = (pre ++ c :: post)%list ->
       c_col c = "title" -> Forall (fun d => c_col d <> "title") post ->
       t = c_val c) /\
    (forall pre c post, conds = (pre ++ c :: post)%list ->
       c_col c = "pageid" -> Forall (fun d => c_col d <> "pageid") post ->
       p = c_val c) /\
    (Forall (fun d => c_col d <> "title") conds -> t = PNone) /\
    (Forall (fun d => c_col d <> "pageid") conds -> p = PNone) /\
    (forall w1, h_connect h (world s) = (Ok tt, w1) ->
       exists tail,
         calls (snd (run_select query s)) =
           (calls s ++ Connect ::
              (if is_none t then
                 if is_none p then Random lim
                 else Search ("pageid:" ++ py_str p) lim
               else
                 if is_none p then Search ("intitle:" ++ py_str t) lim
                 else Search
                        ("intitle:" ++ py_str t ++ " | " ++ "pageid:"
                           ++ py_str p) lim)
              :: tail)%list /\
         forallb is_page_call tail = true).
Proof.
  intros Hparse Hall.
  destruct (validate_loop_accepts conds Hall PNone PNone)
    as (t & p & Hval & Htn & Hpn & Ht & Hp).
  exists t, p. split; [exact Hval |]. split; [exact Ht |].
  split; [exact Hp |]. split; [exact Htn |]. split; [exact Hpn |].
  intros w1 Hc.
  rewrite (select_after_validation query cols conds ob lim t p s Hparse Hval).
  simpl. rewrite <- listing_call_written_out.
  apply (get_pages_calls t p lim s w1 Hc).
Qed.

(** C7: [get_pages] called without a limit runs with the limit 20: once
    the connection is made, 20 is the [results] of the search call, or the
    [pages] of the random call when there is no filter, and a listing of at
    most 20 titles gives at most 20 rows. *)
Theorem get_pages_default_limit (title page_id : option pyval) s w1 :
  h_connect h (world s) = (Ok tt, w1) ->
  get_pages_kw h title page_id None s =
    get_pages h (default PNone title) (default PNone page_id) 20 s /\
  (exists tail,
     calls (snd (get_pages_kw h title page_id None s)) =
       (calls s ++ Connect ::
          (if str_truthy
                (search_query (default PNone title) (default PNone page_id))
           then Search
                  (search_query (default PNone title) (default PNone page_id))
                  20
           else Random 20) :: tail)%list /\
     forallb is_page_call tail = true) /\
  (forall rs w2,
     (if str_truthy
           (search_query (default PNone title) (default PNone page_id))
      then h_search h
             (search_query (default PNone title) (default PNone page_id))
             20 w1
      else h_random h 20 w1) = (Ok rs, w2) ->
     Z.of_nat (length rs) <= 20 ->
     forall rows, fst (get_pages_kw h title page_id None s) = Ok rows ->
                  Z.of_nat (length rows) <= 20).
Proof.
  intros Hc. split; [reflexivity |]. split.
  - apply (get_pages_calls _ _ 20 s w1 Hc).
  - intros rs w2 Hlist Hlen rows Hrows.
    destruct (get_pages_listed _ _ 20 s w1 rs w2 Hc Hlist)
      as (k & _ & _ & Hone & _).
    destruct (Hone rows Hrows) as [_ ->]. exact Hlen.
Qed.

(** C6: an INSERT that parses to at least one row whose [title], [content]
    and [summary] are set makes exactly one call, the [edit] call, whose
    parameters carry the title, the content as [text], the summary and, as
    [headers], the JSON text of the two fixed headers; the rows after the
    first play no part. *)
Theorem insert_first_row (query : insert_ast) (r : pydict) rest
  (title content summary : pyval) s :
  INSERTQueryParser query get_columns = Ok (r :: rest) ->
  r !! "title" = Some title ->
  r !! "content" = Some content ->
  r !! "summary" = Some summary ->
  exists params : pydict,
    calls (snd (run_insert query s)) =
      (calls s ++ [CallApplicationApi "edit" params])%list /\
    run_insert query s =
      (fst (h_call_application_api h "edit" params (world s)),
       State (snd (h_call_application_api h "edit" params (world s)))
         (calls s ++ [CallApplicationApi "edit" params])%list (debug s)) /\
    params !! "title" = Some title /\
    params !! "text" = Some content /\
    params !! "summary" = Some summary /\
    params !! "headers" =
      Some (PStr (json_dumps
                    (JArray
                       [JObject [("Accept", JString "application/json")];
                        JObject [("Content-Type",
                                  JString
                                    "application/x-www-form-urlencoded")]]))) /\
    json_dumps
      (JArray
         [JObject [("Accept", JString "application/json")];
          JObject [("Content-Type",
                    JString "application/x-www-form-urlencoded")]]) =
      "[{" ++ dquote ++ "Accept" ++ dquote ++ ": " ++ dquote
        ++ "application/json" ++ dquote ++ "}, {" ++ dquote ++ "Content-Type"
        ++ dquote ++ ": " ++ dquote ++ "application/x-www-form-urlencoded"
        ++ dquote ++ "}]" /\
    (forall k, is_Some (params !! k) ->
               In k ["title"; "text"; "summary"; "headers"]).
Proof.
  intros Hparse Ht Hc Hs.
  exists (edit_params title content summary).
  assert (Hrun : run_insert query s =
    (fst (h_call_application_api h "edit"
            (edit_params title content summary) (world s)),
     State (snd (h_call_application_api h "edit"
                   (edit_params title content summary) (world s)))
       (calls s ++ [CallApplicationApi "edit"
                      (edit_params title content summary)])%list (debug s))).
  { unfold insert, bind. rewrite Hparse. simpl.
    unfold getitem. rewrite Ht, Hc, Hs. simpl. unfold invoke.
    destruct (h_call_application_api h "edit" _ (world s)). reflexivity. }
  split; [rewrite Hrun; reflexivity |]. split; [exact Hrun |].
  unfold edit_params.
  split; [by simplify_map_eq |]. split; [by simplify_map_eq |].
  split; [by simplify_map_eq |]. split; [by simplify_map_eq |].
  split; [reflexivity |].
  intros k [v Hk].
  destruct (decide (k = "headers")) as [-> | ?]; [simpl; auto |].
  destruct (decide (k = "summary")) as [-> | ?]; [simpl; auto |].
  destruct (decide (k = "text")) as [-> | ?]; [simpl; auto |].
  destruct (decide (k = "title")) as [-> | ?]; [simpl; auto |].
  simplify_map_eq.
Qed.

(** C10: an INSERT that parses to no row makes no call and returns; an
    INSERT whose first row misses one of [title], [content], [summary] raises
    [KeyError] on a missing key, in the state it started from: no call was
    made. *)
Theorem insert_without_row_or_key (query : insert_ast) s :
  (INSERTQueryParser query get_columns = Ok [] ->
   run_insert query s = (Ok tt, s)) /\
  (forall (r : pydict) rest,
     INSERTQueryParser query get_columns = Ok (r :: rest) ->
     r !! "title" = None \/ r !! "content" = None \/ r !! "summary" = None ->
     exists k, In k ["title"; "content"; "summary"] /\ r !! k = None /\
               run_insert query s = (Raise (KeyError k), s)).
Proof.
  split.
  - intros Hparse. unfold insert, bind. rewrite Hparse. reflexivity.
  - intros r rest Hparse Hmiss. unfold insert, bind. rewrite Hparse. simpl.
    unfold getitem.
    destruct (r !! "title") as [t |] eqn:Ht.
    + destruct (r !! "content") as [c |] eqn:Hc.
      * destruct (r !! "summary") as [m |] eqn:Hm.
        -- destruct Hmiss as [? | [? | ?]]; discriminate.
        -- exists "summary". simpl. auto.
      * exists "content". simpl. auto.
    + exists "title". simpl. auto.
Qed.

End Table.

(** ** Rows *)


(** C8: whatever the page carries, every key of a row that the conversion
    produces is one of the seven columns of [get_columns]. *)
Theorem convert_page_keys_in_schema {World : Type} (p : page)
  (s s' : state World) (result : row) :
  convert_page_to_dict p s = (Ok result, s') ->
  forall k, is_Some (result !! k) -> In k get_columns.
Proof.
  intros Hrun k Hk.
  destruct (convert_loop_keys p get_columns ∅ s result s' Hrun k Hk)
    as [Hin | Hsome]; [exact Hin |].
  rewrite lookup_empty in Hsome. destruct Hsome as [? ?]. discriminate.
Qed.

(** Any other exception of a read ends the conversion. *)
Lemma convert_page_propagates {World : Type} (s : state World) :
  fst (convert_page_to_dict bare_page s) =
    Raise (AttributeError "categories").
Proof. reflexivity. Qed.

(** ** The properties on the sample wiki *)

Lemma select_rejects_unsupported_condition_witness :
  exists msg, sample_select query_on_url start = (Raise (ValueError msg), start).
Proof.
  destruct (select_rejects_unsupported_condition sample_select_parser
              sample_normalize sample_executor sample_wiki query_on_url []
              [Cond "=" "title" (PStr "X"); Cond "=" "url" (PStr "Y")] tt 2
              start eq_refl)
    as (c & _ & [(_ & _ & Hrun) | (_ & _ & Hrun)]).
  - exists (Cond "=" "url" (PStr "Y")). split; [simpl; auto |].
    left. split; discriminate.
  - eexists. exact Hrun.
  - eexists. exact Hrun.
Defined.

Lemma sample_wiki_serves : serves_pages sample_wiki.
Proof.
  intros t w. exists (sample_page t), (S w). split; [reflexivity |].
  intros a e Hin He. simpl in Hin.
  destruct Hin as [<- | [<- | [<- | [<- | [<- | [<- | [<- | []]]]]]]];
    try discriminate.
  exists "categories". vm_compute in He. congruence.
Qed.

Lemma select_by_title_witness :
  exists k pages,
    calls (snd (sample_select query_on_title start)) =
      Connect :: Search "intitle:X" 2 :: page_calls (take k ["Alpha"; "Beta"])
    /\ fst (get_pages sample_wiki (PStr "X") PNone 2 start) = Ok pages
    /\ length pages = 2%nat.
Proof.
  destruct (select_by_title sample_select_parser sample_normalize
              sample_executor sample_wiki query_on_title [] tt 2 "X" start
              1%nat ["Alpha"; "Beta"] 2%nat eq_refl eq_refl eq_refl)
    as (k & r & s' & Hpages & Hrun & Hcalls & _ & Hserved).
  - simpl. lia.
  - destruct (Hserved sample_wiki_serves) as (pages & -> & Hlen).
    exists k, pages. unfold sample_select. rewrite Hrun, Hpages.
    split; [exact Hcalls |]. split; [reflexivity | exact Hlen].
Defined.

Lemma select_without_filter_witness :
  exists k pages,
    calls (snd (sample_select query_without_filter start)) =
      Connect :: Random 5 :: page_calls (take k ["Delta"; "Epsilon"])
    /\ fst (get_pages sample_wiki PNone PNone 5 start) = Ok pages
    /\ length pages = 2%nat.
Proof.
  destruct (select_without_filter sample_select_parser sample_normalize
              sample_executor sample_wiki query_without_filter [] tt 5 start
              1%nat ["Delta"; "Epsilon"] 2%nat eq_refl eq_refl eq_refl)
    as (k & r & s' & Hpages & Hrun & Hcalls & _ & _ & Hserved).
  destruct (Hserved sample_wiki_serves) as (pages & -> & Hlen).
  exists k, pages. unfold sample_select. rewrite Hrun, Hpages.
  split; [exact Hcalls |]. split; [reflexivity | exact Hlen].
Defined.

Lemma select_by_title_and_pageid_witness :
  exists tail,
    calls (snd (sample_select query_on_both start)) =
      Connect :: Search "intitle:X | pageid:7" 2 :: tail.
Proof.
  destruct (select_by_title_and_pageid sample_select_parser sample_normalize
              sample_executor sample_wiki query_on_both [] 
              [Cond "=" "title" (PStr "X"); Cond "=" "pageid" (PInt 7)] tt 2
              (PStr "X") (PInt 7) start 1%nat eq_refl)
    as (tail & Hcalls & _).
  - left. reflexivity.
  - discriminate.
  - discriminate.
  - reflexivity.
  - exists tail. exact Hcalls.
Defined.

(** C4, as stated: the search term that [select] sends for [title = 'X']
    and [pageid = 7] is not the two fragments joined with a bare bar. *)
Lemma search_term_not_joined_with_bare_bar :
  ~ exists lim,
      In (Search (String.concat "|" ["intitle:X"; "pageid:7"]) lim)
         (calls (snd (sample_select query_on_both start))).
Proof.
  intros [lim Hin]. vm_compute in Hin.
  repeat (destruct Hin as [Hin | Hin]; [discriminate |]). exact Hin.
Qed.

Lemma validate_keeps_last_value_witness :
  validate_where_conditions
    [Cond "=" "title" (PStr "A"); Cond "=" "title" (PStr "B")] =
    Ok (PStr "B", PNone) /\
  exists tail,
    calls (snd (sample_select query_on_title_twice start)) =
      Connect :: Search "intitle:B" 2 :: tail.
Proof.
  destruct (validate_keeps_last_value sample_select_parser sample_normalize
              sample_executor sample_wiki query_on_title_twice []
              [Cond "=" "title" (PStr "A"); Cond "=" "title" (PStr "B")] tt 2
              start eq_refl eq_refl)
    as (t & p & Hval & Ht & _ & _ & Hp & Hcalls).
  assert (Et : t = PStr "B")
    by exact (Ht [Cond "=" "title" (PStr "A")] (Cond "=" "title" (PStr "B"))
                [] eq_refl eq_refl (List.Forall_nil _)).
  assert (Ep : p = PNone).
  { apply Hp. repeat constructor; discriminate. }
  subst t p. split; [exact Hval |].
  destruct (Hcalls 1%nat eq_refl) as (tail & Hlog & _).
  exists tail. exact Hlog.
Defined.

Lemma get_pages_default_limit_witness :
  exists tail,
    calls (snd (get_pages_kw sample_wiki None None None start)) =
      Connect :: Random 20 :: tail.
Proof.
  destruct (get_pages_default_limit sample_wiki None None start 1%nat eq_refl)
    as (_ & (tail & Hcalls & _) & _).
  exists tail. exact Hcalls.
Defined.

Lemma insert_first_row_witness :
  exists params : pydict,
    calls (snd (sample_insert [full_row; row_without_content] start)) =
      [CallApplicationApi "edit" params] /\
    params !! "text" = Some (PStr "C").
Proof.
  destruct (insert_first_row sample_insert_parser sample_wiki
              [full_row; row_without_content] full_row [row_without_content]
              (PStr "T") (PStr "C") (PStr "S") start eq_refl eq_refl eq_refl
              eq_refl)
    as (params & Hcalls & _ & _ & Htext & _).
  exists params. split; [exact Hcalls | exact Htext].
Defined.

Lemma insert_without_row_or_key_witness :
  sample_insert [] start = (Ok tt, start) /\
  exists k, sample_insert [row_without_content; full_row] start =
              (Raise (KeyError k), start).
Proof.
  split.
  - apply (insert_without_row_or_key sample_insert_parser sample_wiki []
             start). reflexivity.
  - destruct (insert_without_row_or_key sample_insert_parser sample_wiki
                [row_without_content; full_row] start) as [_ Hkey].
    destruct (Hkey row_without_content [full_row] eq_refl)
      as (k & _ & _ & Hrun).
    + right. left. reflexivity.
    + exists k. exact Hrun.
Defined.



Lemma sample_page_row :
  exists (result : row) s',
    convert_page_to_dict (sample_page "T") start = (Ok result, s') /\
    result !! "title" = Some (AStr "T").
Proof. eexists. eexists. split; reflexivity. Qed.

Lemma convert_page_keys_in_schema_witness :
  sample_page "T" "links" = Ok (AStr "T") /\ In "title" get_columns.
Proof.
  split; [reflexivity |].
  destruct sample_page_row as (result & s' & Hrun & Ht).
  apply (convert_page_keys_in_schema (sample_page "T") start s' result Hrun).
  rewrite Ht. eauto.
Defined.

(** * Further properties *)

(** ** Validation *)

Lemma validate_loop_unsupported (c : condition) (rest : list condition) t p :
  supported c = false ->
  validate_loop (c :: rest) t p = Raise (ValueError (rejection c)).
Proof.
  intros Hc. unfold supported in Hc. unfold rejection. simpl.
  destruct (String.eqb (c_col c) "title"); simpl in *.
  - rewrite Hc. reflexivity.
  - destruct (String.eqb (c_col c) "pageid"); simpl in *.
    + rewrite Hc. reflexivity.
    + reflexivity.
Qed.

Lemma validate_loop_first (pre : list condition) (c : condition)
  (post : list condition) :
  forallb supported pre = true -> supported c = false ->
  forall t p,
    validate_loop (pre ++ c :: post) t p = Raise (ValueError (rejection c)).
Proof.
  intros Hpre Hc. induction pre as [| a pre IH]; intros t p.
  - apply validate_loop_unsupported. exact Hc.
  - simpl in Hpre. apply andb_true_iff in Hpre as [Ha Hpre].
    change ((a :: pre) ++ c :: post)%list with (a :: (pre ++ c :: post))%list.
    rewrite (validate_loop_step a _ t p Ha). apply IH. exact Hpre.
Qed.

(** X1: the error of the validation is that of the first condition, in
    list order, that is not an equality on [title] or [pageid]; what comes
    after it is not looked at. *)
Theorem validate_reports_first_unsupported (pre : list condition)
  (c : condition) (post : list condition) :
  forallb supported pre = true -> supported c = false ->
  validate_where_conditions (pre ++ c :: post) =
    Raise (ValueError (rejection c)).
Proof.
  intros Hpre Hc. apply validate_loop_first; assumption.
Qed.

(** X2: the validation accepts a clause exactly when each of its
    conditions is an equality on [title] or on [pageid]; the values play no
    part. *)
Theorem validate_accepts_iff_supported (conds : list condition) :
  (exists t p, validate_where_conditions conds = Ok (t, p)) <->
  Forall (fun c => (c_col c = "title" \/ c_col c = "pageid") /\ c_op c = "=")
    conds.
Proof.
  split.
  - intros (t & p & Hval).
    destruct (forallb supported conds) eqn:Hall.
    + rewrite forallb_forall in Hall. apply List.Forall_forall.
      intros c Hin. apply supported_cases. apply Hall. exact Hin.
    + destruct (validate_loop_rejects conds Hall PNone PNone)
        as (pre & c & post & _ & _ & _ & Hrun).
      unfold validate_where_conditions in Hval. congruence.
  - intros Hall.
    assert (Hb : forallb supported conds = true).
    { apply forallb_forall. intros c Hin. apply supported_cases.
      rewrite List.Forall_forall in Hall. apply Hall. exact Hin. }
    destruct (validate_loop_accepts conds Hb PNone PNone)
      as (t & p & Hval & _).
    exists t, p. exact Hval.
Qed.

(** ** The search term *)

Lemma string_append_assoc (x y z : string) :
  ((x ++ y) ++ z)%string = (x ++ y ++ z)%string.
Proof.
  induction x as [| ch x IH]; [reflexivity |].
  change (String ch ((x ++ y) ++ z) = String ch (x ++ y ++ z))%string.
  rewrite IH. reflexivity.
Qed.

(** X12: the title is copied into the search term as it is: a title that
    ends in a bar and a [pageid:] fragment gives the term of the shorter title
    filtered on that page id. *)
Theorem search_term_title_not_escaped (a : string) (pv : pyval) :
  pv <> PNone ->
  search_query (PStr (a ++ " | pageid:" ++ py_str pv)) PNone =
    search_query (PStr a) pv.
Proof.
  intros Hpv. unfold search_query, query_parts.
  assert (Hnone : is_none pv = false)
    by (destruct pv; [congruence | reflexivity ..]).
  rewrite Hnone. cbn [negb is_none app String.concat py_str].
  rewrite string_append_assoc. reflexivity.
Qed.

(** ** Conversion: errors and the size of the row *)

Section ConversionMore.

Context {World : Type}.
Implicit Types (s : state World) (p : page) (result : row).

Lemma convert_loop_stops p (pre : list string) (a : string)
  (post : list string) (e : exn) :
  (forall b e', In b pre -> p b = Raise e' -> exists k, e' = KeyError k) ->
  p a = Raise e -> (forall k, e <> KeyError k) ->
  forall result s,
    convert_loop p (pre ++ a :: post) result s =
      (Raise e,
       State (world s) (calls s)
         (debug s ++ map debug_line (filter (lacks p) pre))%list).
Proof.
  intros Hpre Ha He. induction pre as [| b pre IH]; intros result s.
  - simpl. rewrite Ha. rewrite app_nil_r.
    destruct e; try reflexivity; try (destruct s; reflexivity).
    exfalso. apply (He key). reflexivity.
  - assert (Hrest : forall b0 e', In b0 pre -> p b0 = Raise e' ->
                                  exists k, e' = KeyError k)
      by (intros b0 e' Hin; apply Hpre; right; exact Hin).
    simpl. destruct (p b) as [v | e'] eqn:Hpb.
    + rewrite (IH Hrest).
      rewrite filter_cons_False; [reflexivity |].
      unfold lacks. rewrite Hpb. auto.
    + destruct (Hpre b e' (or_introl eq_refl) Hpb) as [k ->].
      unfold bind, logger_debug. rewrite (IH Hrest). simpl.
      rewrite filter_cons_True by (unfold lacks; rewrite Hpb; exact I).
      simpl. rewrite <- app_assoc. reflexivity.
Qed.

(** X8: only [KeyError] is absorbed.  The first schema attribute, in the
    order of [get_columns], whose read raises another exception ends the
    conversion with that exception; the debug lines of the missing attributes
    before it have been logged, and no row is returned. *)
Theorem convert_page_stops_at_other_error p (pre : list string) (a : string)
  (post : list string) (e : exn) s :
  get_columns = (pre ++ a :: post)%list ->
  (forall b e', In b pre -> p b = Raise e' -> exists k, e' = KeyError k) ->
  p a = Raise e -> (forall k, e <> KeyError k) ->
  convert_page_to_dict p s =
    (Raise e,
     State (world s) (calls s)
       (debug s ++ map debug_line (filter (lacks p) pre))%list).
Proof.
  intros Hcols Hpre Ha He. unfold convert_page_to_dict. rewrite Hcols.
  apply convert_loop_stops; assumption.
Qed.

Lemma get_columns_nodup : NoDup get_columns.
Proof. apply (bool_decide_unpack (NoDup get_columns)). vm_compute. exact I. Qed.

Lemma convert_loop_size p attributes :
  NoDup attributes ->
  (forall a e, In a attributes -> p a = Raise e -> exists k, e = KeyError k) ->
  forall result s,
    (forall a, In a attributes -> result !! a = None) ->
    exists result' s',
      convert_loop p attributes result s = (Ok result', s') /\
      (size result' + length (debug s') =
         size result + length (debug s) + length attributes)%nat.
Proof.
  intros Hnd. induction Hnd as [| a rest Hnin Hnd IH]; intros Hread result s Hfresh.
  - exists result, s. split; [reflexivity |]. simpl. lia.
  - assert (Hrest : forall a0 e, In a0 rest -> p a0 = Raise e ->
                                 exists k, e = KeyError k)
      by (intros a0 e Hin; apply Hread; right; exact Hin).
    simpl. destruct (p a) as [v | e] eqn:Hpa.
    + destruct (IH Hrest (<[a := v]> result) s) as (result' & s' & Hrun & Hsize).
      { intros a0 Hin. rewrite lookup_insert_ne.
        - apply Hfresh. right. exact Hin.
        - intros <-. apply Hnin. apply list_elem_of_In. exact Hin. }
      exists result', s'. split; [exact Hrun |].
      rewrite map_size_insert_None in Hsize
        by (apply Hfresh; left; reflexivity).
      simpl. lia.
    + destruct (Hread a e (or_introl eq_refl) Hpa) as [k ->].
      unfold bind, logger_debug.
      destruct (IH Hrest result
                  (State (world s) (calls s) (debug s ++ [debug_line a])%list))
        as (result' & s' & Hrun & Hsize).
      { intros a0 Hin. apply Hfresh. right. exact Hin. }
      exists result', s'. rewrite Hrun. split; [reflexivity |].
      simpl in Hsize. rewrite length_app in Hsize. simpl in *. lia.
Qed.

(** X9: on a page whose failing reads all fail with [KeyError], each of the
    seven schema attributes ends either as a key of the row or as one debug
    line: the size of the row and the number of lines logged add up to
    seven. *)
Theorem convert_page_row_or_line p s :
  (forall a, In a get_columns ->
     (exists v, p a = Ok v) \/ (exists k, p a = Raise (KeyError k))) ->
  exists (result : row) s',
    convert_page_to_dict p s = (Ok result, s') /\
    (size result + length (debug s') = length (debug s) + 7)%nat.
Proof.
  intros Hattrs.
  destruct (convert_loop_size p get_columns) with (result := (∅ : row)) (s := s)
    as (result & s' & Hrun & Hsize).
  - apply get_columns_nodup.
  - intros a e Hin He. destruct (Hattrs a Hin) as [[v Hv] | [k Hk]].
    + congruence.
    + exists k. congruence.
  - intros a _. apply lookup_empty.
  - exists result, s'. split; [exact Hrun |].
    rewrite map_size_empty in Hsize. simpl in Hsize. lia.
Qed.

End ConversionMore.

(** ** Fetching: failures and order *)

Section FetchingMore.

Context {World : Type} (h : handler World).
Implicit Types (s : state World) (rs : list string).

(** The comprehension gives all the rows or none: when it fails, the page
    that failed is the last one requested. *)
Lemma comprehension_fetch_outcome rs :
  forall s,
    match fst (comprehension (fetch_page h) rs s) with
    | Ok rows =>
        length rows = length rs /\
        calls (snd (comprehension (fetch_page h) rs s)) =
          (calls s ++ page_calls rs)%list
    | Raise e =>
        exists k, (k < length rs)%nat /\
          calls (snd (comprehension (fetch_page h) rs s)) =
            (calls s ++ page_calls (take (S k) rs))%list
    end.
Proof.
  induction rs as [| t rest IH]; intros s.
  - simpl. rewrite app_nil_r. split; reflexivity.
  - simpl. unfold bind.
    pose proof (fetch_page_calls h t s) as Hone.
    destruct (fetch_page h t s) as [[r | e] s1]; simpl in Hone.
    + specialize (IH s1).
      destruct (comprehension (fetch_page h) rest s1) as [[rows | e] s2];
        simpl in *.
      * destruct IH as [Hlen Hcalls]. split; [rewrite Hlen; reflexivity |].
        rewrite Hcalls, Hone, <- app_assoc. reflexivity.
      * destruct IH as (k & Hk & Hcalls). exists (S k). split; [lia |].
        rewrite Hcalls, Hone, <- app_assoc. reflexivity.
    + exists 0%nat. simpl. split; [lia |]. rewrite ?take_0. exact Hone.
Qed.

(** The row of a page: the schema attributes that have a value, with that
    value, and nothing else. *)
Lemma convert_page_exact (p : page) s :
  readable p ->
  exists (r : row) s',
    convert_page_to_dict p s = (Ok r, s') /\
    world s' = world s /\ calls s' = calls s /\
    (forall a v, In a get_columns -> p a = Ok v -> r !! a = Some v) /\
    (forall a v, r !! a = Some v -> In a get_columns /\ p a = Ok v).
Proof.
  intros Hread.
  destruct (convert_loop_readable p get_columns Hread ∅ s)
    as (r & Hrun & Hhas & Hlack & Hout).
  exists r. eexists. split; [exact Hrun |]. simpl.
  split; [reflexivity |]. split; [reflexivity |]. split; [exact Hhas |].
  intros a v Hr.
  destruct (in_dec string_dec a get_columns) as [Hin | Hnin].
  - split; [exact Hin |].
    destruct (p a) as [v' | e] eqn:Hpa.
    + rewrite (Hhas a v' Hin Hpa) in Hr. congruence.
    + destruct (Hread a e Hin Hpa) as [k ->].
      assert (Hla : lacks p a = true) by (unfold lacks; rewrite Hpa; reflexivity).
      rewrite (Hlack a Hla), lookup_empty in Hr. discriminate.
  - rewrite (Hout a Hnin), lookup_empty in Hr. discriminate.
Qed.

Lemma comprehension_fetch_in_order (pg : string -> page) rs :
  (forall t w, exists w', h_page h t false w = (Ok (pg t), w')) ->
  (forall t, readable (pg t)) ->
  forall s, exists rows,
    fst (comprehension (fetch_page h) rs s) = Ok rows /\
    Forall2
      (fun t (r : row) =>
         (forall a v, In a get_columns -> pg t a = Ok v -> r !! a = Some v) /\
         (forall a v, r !! a = Some v -> In a get_columns /\ pg t a = Ok v))
      rs rows.
Proof.
  intros Hpg Hread. induction rs as [| t rest IH]; intros s.
  - exists []. split; [reflexivity | constructor].
  - simpl. unfold bind at 1. unfold fetch_page at 1. unfold bind, invoke.
    destruct (Hpg t (world s)) as [w' Hpage]. rewrite Hpage.
    destruct (convert_page_exact (pg t)
                (State w' (calls s ++ [Page t false])%list (debug s))
                (Hread t))
      as (r & s1 & Hrun & _ & _ & Hhas & Honly).
    rewrite Hrun.
    destruct (IH s1) as (rows & Hrows & Hall).
    destruct (comprehension (fetch_page h) rest s1) as [[rows' | e] s2];
      simpl in Hrows; [| discriminate].
    injection Hrows as ->.
    exists (r :: rows). split; [reflexivity |].
    constructor; [split; assumption | exact Hall].
Qed.

End FetchingMore.

(** ** The table: remaining paths *)

Section TableMore.

Context {World select_ast insert_ast order_by DataFrame : Type}.
Variable SELECTQueryParser :
  select_ast -> string -> list string ->
  res (list string * list condition * order_by * Z).
Variable INSERTQueryParser : insert_ast -> list string -> res (list pydict).
Variable json_normalize : list row -> DataFrame.
Variable SELECTQueryExecutor :
  DataFrame -> list string -> list condition -> order_by -> res DataFrame.
Variable h : handler World.

Implicit Types (s : state World) (query : select_ast).

Local Abbreviation run_select :=
  (select SELECTQueryParser json_normalize SELECTQueryExecutor h).
Local Abbreviation run_insert := (insert INSERTQueryParser h).

Lemma get_pages_connect_fails (t p : pyval) (lim : Z) s e w1 :
  h_connect h (world s) = (Raise e, w1) ->
  get_pages h t p lim s =
    (Raise e, State w1 (calls s ++ [Connect])%list (debug s)).
Proof.
  intros Hc. unfold get_pages, bind, invoke. rewrite Hc. reflexivity.
Qed.

Lemma get_pages_listing_fails (t p : pyval) (lim : Z) s w1 e w2 :
  h_connect h (world s) = (Ok tt, w1) ->
  (if str_truthy (search_query t p)
   then h_search h (search_query t p) lim w1
   else h_random h lim w1) = (Raise e, w2) ->
  get_pages h t p lim s =
    (Raise e,
     State w2
       (calls s ++
          [Connect;
           if str_truthy (search_query t p)
           then Search (search_query t p) lim else Random lim])%list
       (debug s)).
Proof.
  intros Hc Hlist. rewrite (get_pages_listing h t p lim s w1 Hc).
  unfold bind, invoke. simpl.
  destruct (str_truthy (search_query t p)); rewrite Hlist;
    rewrite <- app_assoc; reflexivity.
Qed.

Lemma get_pages_after_listing (t p : pyval) (lim : Z) s w1 rs w2 :
  h_connect h (world s) = (Ok tt, w1) ->
  (if str_truthy (search_query t p)
   then h_search h (search_query t p) lim w1
   else h_random h lim w1) = (Ok rs, w2) ->
  get_pages h t p lim s =
    comprehension (fetch_page h) rs
      (State w2
         (calls s ++
            [Connect;
             if str_truthy (search_query t p)
             then Search (search_query t p) lim else Random lim])%list
         (debug s)).
Proof.
  intros Hc Hlist. rewrite (get_pages_listing h t p lim s w1 Hc).
  unfold bind, invoke. simpl.
  destruct (str_truthy (search_query t p)); rewrite Hlist;
    rewrite <- app_assoc; reflexivity.
Qed.

(** X13: a failure of the connection or of the listing call is the failure
    of [select]: the exception is handed on as it is, the executor is not
    run, and the log ends with the call that failed. *)
Theorem select_propagates_remote_failure query cols conds ob lim
  (t p : pyval) s :
  SELECTQueryParser query "pages" get_columns = Ok (cols, conds, ob, lim) ->
  validate_where_conditions conds = Ok (t, p) ->
  (forall e w1,
     h_connect h (world s) = (Raise e, w1) ->
     run_select query s =
       (Raise e, State w1 (calls s ++ [Connect])%list (debug s))) /\
  (forall w1 e w2,
     h_connect h (world s) = (Ok tt, w1) ->
     (if str_truthy (search_query t p)
      then h_search h (search_query t p) lim w1
      else h_random h lim w1) = (Raise e, w2) ->
     run_select query s =
       (Raise e,
        State w2
          (calls s ++
             [Connect;
              if str_truthy (search_query t p)
              then Search (search_query t p) lim else Random lim])%list
          (debug s))).
Proof.
  intros Hparse Hval.
  pose proof (select_after_validation SELECTQueryParser json_normalize
                SELECTQueryExecutor h query cols conds ob lim t p s Hparse
                Hval) as Hsel.
  split.
  - intros e w1 Hc. rewrite Hsel, (get_pages_connect_fails t p lim s e w1 Hc).
    reflexivity.
  - intros w1 e w2 Hc Hlist.
    rewrite Hsel, (get_pages_listing_fails t p lim s w1 e w2 Hc Hlist).
    reflexivity.
Qed.

(** X6: there is no isolation of the pages: once the listing has answered,
    [select] either has a row for every title listed, all of them requested in
    order, or fails at the first page that fails, the last one requested, and
    hands on that failure without running the executor. *)
Theorem select_all_rows_or_none query cols conds ob lim (t p : pyval)
  s w1 rs w2 :
  SELECTQueryParser query "pages" get_columns = Ok (cols, conds, ob, lim) ->
  validate_where_conditions conds = Ok (t, p) ->
  h_connect h (world s) = (Ok tt, w1) ->
  (if str_truthy (search_query t p)
   then h_search h (search_query t p) lim w1
   else h_random h lim w1) = (Ok rs, w2) ->
  match fst (get_pages h t p lim s) with
  | Ok pages =>
      length pages = length rs /\
      calls (snd (run_select query s)) =
        (calls s ++ Connect ::
           (if str_truthy (search_query t p)
            then Search (search_query t p) lim else Random lim)
           :: page_calls rs)%list
  | Raise e =>
      fst (run_select query s) = Raise e /\
      exists k, (k < length rs)%nat /\
        calls (snd (run_select query s)) =
          (calls s ++ Connect ::
             (if str_truthy (search_query t p)
              then Search (search_query t p) lim else Random lim)
             :: page_calls (take (S k) rs))%list
  end.
Proof.
  intros Hparse Hval Hc Hlist.
  rewrite (select_after_validation SELECTQueryParser json_normalize
             SELECTQueryExecutor h query cols conds ob lim t p s Hparse Hval).
  rewrite (get_pages_after_listing t p lim s w1 rs w2 Hc Hlist).
  match goal with |- context [comprehension (fetch_page h) rs ?s1] =>
    pose proof (comprehension_fetch_outcome h rs s1) as Hout;
    destruct (comprehension (fetch_page h) rs s1) as [[rows | e] s2]
  end; simpl in *.
  - destruct Hout as [Hlen Hcalls]. split; [exact Hlen |].
    rewrite <- app_assoc in Hcalls. exact Hcalls.
  - split; [reflexivity |]. destruct Hout as (k & Hk & Hcalls).
    exists k. split; [exact Hk |].
    rewrite <- app_assoc in Hcalls. exact Hcalls.
Qed.

(** X7: when the handler serves the page [pg t] for every title [t], and
    these pages can be read, the rows come back in the order in which the
    listing call returned the titles: the row at each position holds exactly
    the schema attributes that the page of the title at that position has. *)
Theorem get_pages_rows_follow_listing (pg : string -> page) (t p : pyval)
  (lim : Z) s w1 rs w2 :
  h_connect h (world s) = (Ok tt, w1) ->
  (if str_truthy (search_query t p)
   then h_search h (search_query t p) lim w1
   else h_random h lim w1) = (Ok rs, w2) ->
  (forall title w, exists w', h_page h title false w = (Ok (pg title), w')) ->
  (forall title, readable (pg title)) ->
  exists rows,
    fst (get_pages h t p lim s) = Ok rows /\
    Forall2
      (fun title (r : row) =>
         (forall a v, In a get_columns -> pg title a = Ok v ->
                      r !! a = Some v) /\
         (forall a v, r !! a = Some v ->
                      In a get_columns /\ pg title a = Ok v))
      rs rows.
Proof.
  intros Hc Hlist Hpg Hread.
  rewrite (get_pages_after_listing t p lim s w1 rs w2 Hc Hlist).
  apply comprehension_fetch_in_order; assumption.
Qed.

(** X3: when the only WHERE condition is an equality on [pageid] with a
    value other than [None], the term of the search call is the single
    fragment [pageid:] followed by the value, with no bar. *)
Theorem select_by_pageid query cols ob lim (pv : pyval) s w1 :
  SELECTQueryParser query "pages" get_columns =
    Ok (cols, [Cond "=" "pageid" pv], ob, lim) ->
  pv <> PNone ->
  h_connect h (world s) = (Ok tt, w1) ->
  exists tail,
    calls (snd (run_select query s)) =
      (calls s ++ Connect :: Search ("pageid:" ++ py_str pv) lim :: tail)%list
    /\ forallb is_page_call tail = true.
Proof.
  intros Hparse Hpv Hc.
  rewrite (select_after_validation SELECTQueryParser json_normalize
             SELECTQueryExecutor h query cols _ ob lim PNone pv s Hparse
             eq_refl).
  simpl.
  destruct (get_pages_calls h PNone pv lim s w1 Hc) as (tail & Hcalls & Hpages).
  exists tail. split; [| exact Hpages]. rewrite Hcalls.
  assert (Hq : search_query PNone pv = "pageid:" ++ py_str pv)
    by (destruct pv; [congruence | reflexivity ..]).
  rewrite Hq. reflexivity.
Qed.

Lemma validate_loop_none (conds : list condition) :
  Forall (fun c => supported c = true /\ c_val c = PNone) conds ->
  validate_loop conds PNone PNone = Ok (PNone, PNone).
Proof.
  induction 1 as [| c rest [Hs Hv] _ IH]; [reflexivity |].
  rewrite (validate_loop_step c rest PNone PNone Hs), Hv.
  destruct (String.eqb (c_col c) "title"); exact IH.
Qed.

(** X4: an equality whose value is [None] is accepted and filters nothing.
    When every condition of the clause is such an equality on [title] or
    [pageid], [select] makes no search call and takes the random sample, as
    for a query without WHERE clause. *)
Theorem select_none_values_take_random query cols conds ob lim s w1 :
  SELECTQueryParser query "pages" get_columns = Ok (cols, conds, ob, lim) ->
  Forall (fun c => supported c = true /\ c_val c = PNone) conds ->
  h_connect h (world s) = (Ok tt, w1) ->
  exists tail,
    calls (snd (run_select query s)) =
      (calls s ++ Connect :: Random lim :: tail)%list /\
    forallb is_page_call tail = true.
Proof.
  intros Hparse Hnone Hc.
  rewrite (select_after_validation SELECTQueryParser json_normalize
             SELECTQueryExecutor h query cols conds ob lim PNone PNone s
             Hparse (validate_loop_none conds Hnone)).
  simpl. apply (get_pages_calls h PNone PNone lim s w1 Hc).
Qed.

(** X5: whatever the query and whatever the handler answers, [select] only
    adds to the call log, and what it adds is nothing, or [connect] alone, or
    [connect], then one [search] or [random] call, then [page] calls only:
    never an [edit] call, never a second connection or listing. *)
Theorem select_call_shape query s :
  exists new,
    calls (snd (run_select query s)) = (calls s ++ new)%list /\
    (new = [] \/ new = [Connect] \/
     exists c tail,
       new = Connect :: c :: tail /\
       ((exists q n, c = Search q n) \/ (exists n, c = Random n)) /\
       forallb is_page_call tail = true).
Proof.
  destruct (SELECTQueryParser query "pages" get_columns)
    as [[[[cols conds] ob] lim] | e] eqn:Hparse.
  - destruct (validate_where_conditions conds) as [[t p] | e] eqn:Hval.
    + rewrite (select_after_validation SELECTQueryParser json_normalize
                 SELECTQueryExecutor h query cols conds ob lim t p s Hparse
                 Hval).
      simpl. destruct (h_connect h (world s)) as [[[] | e] w1] eqn:Hc.
      * destruct (get_pages_calls h t p lim s w1 Hc)
          as (tail & Hcalls & Hpages).
        eexists. split; [exact Hcalls |]. right. right.
        eexists. exists tail. split; [reflexivity |]. split; [| exact Hpages].
        destruct (str_truthy (search_query t p)); eauto.
      * rewrite (get_pages_connect_fails t p lim s e w1 Hc). simpl.
        exists [Connect]. auto.
    + exists []. split; [| auto]. unfold select, bind.
      rewrite Hparse. simpl. rewrite Hval. simpl. rewrite app_nil_r.
      reflexivity.
  - exists []. split; [| auto]. unfold select, bind.
    rewrite Hparse. simpl. rewrite app_nil_r. reflexivity.
Qed.

(** X10: [insert] reads the keys [title], [content] and [summary] of the
    first row and nothing else: two INSERTs whose first rows agree on these
    three keys do the same thing, whatever the other columns and the other
    rows are. *)
Theorem insert_reads_three_keys (q1 q2 : insert_ast) (r1 r2 : pydict)
  rest1 rest2 s :
  INSERTQueryParser q1 get_columns = Ok (r1 :: rest1) ->
  INSERTQueryParser q2 get_columns = Ok (r2 :: rest2) ->
  r1 !! "title" = r2 !! "title" ->
  r1 !! "content" = r2 !! "content" ->
  r1 !! "summary" = r2 !! "summary" ->
  run_insert q1 s = run_insert q2 s.
Proof.
  intros H1 H2 Ht Hc Hs. unfold insert, bind. rewrite H1, H2. simpl.
  unfold getitem. rewrite Ht, Hc, Hs. reflexivity.
Qed.

(** X11: whatever the query and whatever the handler answers, [insert]
    either leaves the state as it is or adds exactly one call to the log, an
    [edit] call; it never connects, searches or fetches a page, and logs no
    debug line. *)
Theorem insert_at_most_one_call (query : insert_ast) s :
  snd (insert INSERTQueryParser h query s) = s \/
  exists params : pydict,
    calls (snd (insert INSERTQueryParser h query s)) =
      (calls s ++ [CallApplicationApi "edit" params])%list /\
    debug (snd (insert INSERTQueryParser h query s)) = debug s.
Proof.
  unfold insert, bind.
  destruct (INSERTQueryParser query get_columns) as [[| r rest] | e];
    simpl; [left; reflexivity | | left; reflexivity].
  unfold getitem.
  destruct (r !! "title") as [t |]; simpl; [| left; reflexivity].
  destruct (r !! "content") as [c |]; simpl; [| left; reflexivity].
  destruct (r !! "summary") as [m |]; simpl; [| left; reflexivity].
  right. exists (edit_params t c m). unfold invoke.
  destruct (h_call_application_api h "edit" _ (world s)).
  split; reflexivity.
Qed.

End TableMore.

(** ** The further properties on the sample wiki *)

Lemma validate_reports_first_unsupported_witness :
  validate_where_conditions
    [Cond "=" "title" (PStr "X"); Cond "=" "url" (PStr "Y");
     Cond ">" "pageid" (PInt 3)] =
    Raise (ValueError "Unsupported column 'url' in WHERE clause.").
Proof.
  apply (validate_reports_first_unsupported [Cond "=" "title" (PStr "X")]
           (Cond "=" "url" (PStr "Y")) [Cond ">" "pageid" (PInt 3)]);
    reflexivity.
Defined.

Lemma search_term_title_not_escaped_witness :
  search_query (PStr ("X" ++ " | pageid:" ++ py_str (PInt 7))) PNone =
    search_query (PStr "X") (PInt 7).
Proof.
  apply (search_term_title_not_escaped "X" (PInt 7)). discriminate.
Defined.

Lemma convert_page_stops_at_other_error_witness :
  convert_page_to_dict bare_page start =
    (Raise (AttributeError "categories"), start).
Proof.
  apply (convert_page_stops_at_other_error bare_page
           ["pageid"; "title"; "original_title"; "content"; "summary"; "url"]
           "categories" [] (AttributeError "categories") start eq_refl).
  - intros b e' Hin He. simpl in Hin.
    destruct Hin as [<- | [<- | [<- | [<- | [<- | [<- | []]]]]]];
      discriminate.
  - reflexivity.
  - discriminate.
Defined.

Lemma sample_page_readable (t : string) : readable (sample_page t).
Proof.
  intros a e Hin He. simpl in Hin.
  destruct Hin as [<- | [<- | [<- | [<- | [<- | [<- | [<- | []]]]]]]];
    try discriminate.
  exists "categories". vm_compute in He. congruence.
Qed.

Lemma convert_page_row_or_line_witness :
  exists (result : row) s',
    convert_page_to_dict (sample_page "T") start = (Ok result, s') /\
    (size result + length (debug s') = 7)%nat.
Proof.
  apply (convert_page_row_or_line (sample_page "T") start).
  intros a Hin.
  destruct (sample_page "T" a) as [v | e] eqn:Ha; [left; eauto |].
  destruct (sample_page_readable "T" a e Hin Ha) as [k ->]. right. eauto.
Defined.

Lemma get_pages_rows_follow_listing_witness :
  exists r1 r2 : row,
    fst (get_pages sample_wiki (PStr "X") PNone 2 start) = Ok [r1; r2] /\
    r1 !! "title" = Some (AStr "Alpha") /\
    r2 !! "title" = Some (AStr "Beta").
Proof.
  destruct (get_pages_rows_follow_listing sample_wiki sample_page (PStr "X")
              PNone 2 start 1%nat ["Alpha"; "Beta"] 2%nat eq_refl eq_refl)
    as (rows & Hrows & Hall).
  - intros title w. exists (S w). reflexivity.
  - apply sample_page_readable.
  - inversion Hall as [| t1 r1 ts1 rows1 [H1 _] Hall1]; subst.
    inversion Hall1 as [| t2 r2 ts2 rows2 [H2 _] Hall2]; subst.
    inversion Hall2; subst.
    exists r1, r2. split; [exact Hrows |]. split.
    + apply H1; [simpl; tauto | reflexivity].
    + apply H2; [simpl; tauto | reflexivity].
Defined.

Lemma select_by_pageid_witness :
  exists tail,
    calls (snd (sample_select query_on_pageid start)) =
      Connect :: Search "pageid:7" 2 :: tail.
Proof.
  destruct (select_by_pageid sample_select_parser sample_normalize
              sample_executor sample_wiki query_on_pageid [] tt 2 (PInt 7)
              start 1%nat eq_refl)
    as (tail & Hcalls & _).
  - discriminate.
  - reflexivity.
  - exists tail. exact Hcalls.
Defined.

Lemma select_none_values_take_random_witness :
  exists tail,
    calls (snd (sample_select query_on_null_title start)) =
      Connect :: Random 2 :: tail.
Proof.
  destruct (select_none_values_take_random sample_select_parser
              sample_normalize sample_executor sample_wiki
              query_on_null_title [] [Cond "=" "title" PNone] tt 2 start
              1%nat eq_refl)
    as (tail & Hcalls & _).
  - repeat constructor.
  - reflexivity.
  - exists tail. exact Hcalls.
Defined.

Lemma select_propagates_remote_failure_witness :
  select sample_select_parser sample_normalize sample_executor offline_wiki
    query_on_title start =
    (Raise (RemoteError "connect"), State 1%nat [Connect] []) /\
  select sample_select_parser sample_normalize sample_executor searchless_wiki
    query_on_title start =
    (Raise (RemoteError "search"),
     State 2%nat [Connect; Search "intitle:X" 2] []).
Proof.
  split.
  - destruct (select_propagates_remote_failure sample_select_parser
                sample_normalize sample_executor offline_wiki query_on_title
                [] [Cond "=" "title" (PStr "X")] tt 2 (PStr "X") PNone start
                eq_refl eq_refl) as [Hconnect _].
    apply (Hconnect (RemoteError "connect") 1%nat). reflexivity.
  - destruct (select_propagates_remote_failure sample_select_parser
                sample_normalize sample_executor searchless_wiki
                query_on_title [] [Cond "=" "title" (PStr "X")] tt 2
                (PStr "X") PNone start eq_refl eq_refl) as [_ Hlisting].
    apply (Hlisting 1%nat (RemoteError "search") 2%nat); reflexivity.
Defined.

Lemma select_all_rows_or_none_witness :
  fst (select sample_select_parser sample_normalize sample_executor
         flaky_wiki query_on_three start) = Raise (RemoteError "page") /\
  exists k, (k < 3)%nat /\
    calls (snd (select sample_select_parser sample_normalize sample_executor
                  flaky_wiki query_on_three start)) =
      Connect :: Search "intitle:X" 3
        :: page_calls (take (S k) ["Alpha"; "Beta"; "Gamma"]).
Proof.
  pose proof (select_all_rows_or_none sample_select_parser sample_normalize
                sample_executor flaky_wiki query_on_three []
                [Cond "=" "title" (PStr "X")] tt 3 (PStr "X") PNone start
                1%nat ["Alpha"; "Beta"; "Gamma"] 2%nat eq_refl eq_refl eq_refl
                eq_refl) as Hrun.
  assert (Hfail : fst (get_pages flaky_wiki (PStr "X") PNone 3 start) =
                  Raise (RemoteError "page")) by reflexivity.
  rewrite Hfail in Hrun. exact Hrun.
Defined.

Lemma insert_reads_three_keys_witness :
  sample_insert [full_row; row_without_content] start =
    sample_insert [full_row_with_url] start.
Proof.
  apply (insert_reads_three_keys sample_insert_parser sample_wiki
           [full_row; row_without_content] [full_row_with_url] full_row
           full_row_with_url [row_without_content] [] start);
    reflexivity.
Defined.
